(** * GtkEventControllerKey: the key event controller of gtk/gtkeventcontrollerkey.c

    A shallow embedding of the controller and of its three entry points
    ([gtk_event_controller_key_handle_event], [gtk_event_controller_key_forward],
    [gtk_event_controller_key_get_group]) together with the setter and getter
    of the input-method context.  The collaborators living outside the file
    (GDK event accessors, the input-method context, signal handlers, the
    widget dispatch tree, GLib's hash table) are modelled by what the file
    observes of them. *)

From stdpp Require Import gmap list.

(** ** Scalar types

    [guint], [guint16] and [GdkModifierType] are unsigned machine integers on
    which the file performs no arithmetic: they are only stored, compared and
    passed on, so they are kept as [N].  A [gpointer] is an address, with
    [NULL] the address 0; [GUINT_TO_POINTER] is the (injective) cast of a
    [guint] to the pointer with the same numeric value. *)

Abbreviation gboolean := bool (only parsing).
Abbreviation TRUE := true (only parsing).
Abbreviation FALSE := false (only parsing).
Abbreviation guint := N (only parsing).
Abbreviation guint16 := N (only parsing).
Abbreviation GdkModifierType := N (only parsing).
Abbreviation gpointer := N (only parsing).

Definition NULL : gpointer := 0%N.
Definition GUINT_TO_POINTER (u : guint) : gpointer := u.

(** ** GHashTable, created by [g_hash_table_new (NULL, NULL)]

    Direct hashing and direct equality: keys are compared as pointers.
    [g_hash_table_add] stores the key as its own value, [g_hash_table_lookup]
    returns the stored value, or [NULL] when the key is absent. *)

Module GHashTable.

Abbreviation t := (gmap gpointer gpointer) (only parsing).

Definition g_hash_table_new : t := ∅.

Definition g_hash_table_add (table : t) (key : gpointer) : t :=
  <[key := key]> table.

Definition g_hash_table_lookup (table : t) (key : gpointer) : gpointer :=
  default NULL (table !! key).

Definition g_hash_table_remove (table : t) (key : gpointer) : t :=
  delete key table.

(** The keys held by the table. *)
Definition keys (table : t) : gset gpointer := dom table.

End GHashTable.
Export GHashTable.

(** ** GDK events

    An event is what its accessors yield.  The accessors whose success flag
    the controller tests ([gdk_event_get_focus_in], [gdk_event_get_state],
    [gdk_event_get_key_is_modifier]) are [option]-valued: [None] is the
    accessor returning [FALSE].  The success flag of the three others is
    ignored by the controller, which uses whatever they wrote to their
    out-parameter; the event records that value. *)

Inductive GdkEventType :=
| GDK_FOCUS_CHANGE
| GDK_KEY_PRESS
| GDK_KEY_RELEASE
| GDK_OTHER_EVENT.

#[global] Instance GdkEventType_eq_dec : EqDecision GdkEventType.
Proof. solve_decision. Defined.

Record GdkEvent := {
  gdk_event_get_event_type : GdkEventType;
  gdk_event_get_focus_in : option gboolean;
  gdk_event_get_state : option GdkModifierType;
  gdk_event_get_key_is_modifier : option gboolean;
  gdk_event_get_keycode : guint16;
  gdk_event_get_keyval : guint;
  gdk_event_get_key_group : guint
}.

(** ** The controller *)

(** Objects owned by collaborators are known by their address only. *)
Abbreviation GtkIMContext := N (only parsing).
Abbreviation GtkWidget := N (only parsing).

Record GtkEventControllerKey := {
  im_context : option GtkIMContext;
  pressed_keys : GHashTable.t;
  current_event : option GdkEvent
}.

Definition with_im_context (im : option GtkIMContext) (key : GtkEventControllerKey) :=
  {| im_context := im;
     pressed_keys := pressed_keys key;
     current_event := current_event key |}.

Definition with_pressed_keys (table : GHashTable.t) (key : GtkEventControllerKey) :=
  {| im_context := im_context key;
     pressed_keys := table;
     current_event := current_event key |}.

Definition with_current_event (event : option GdkEvent) (key : GtkEventControllerKey) :=
  {| im_context := im_context key;
     pressed_keys := pressed_keys key;
     current_event := event |}.

(** The controller as signal handlers see it while [event] is handled. *)
Definition during (event : GdkEvent) (key : GtkEventControllerKey) :=
  with_current_event (Some event) key.

(** The set of pressed key values. *)
Definition pressed_set (key : GtkEventControllerKey) : gset guint :=
  GHashTable.keys (pressed_keys key).

(** ** Signals and other effects *)

(** An emission of one of [signals[N_SIGNALS]] with its arguments; for the
    two signals of return type [G_TYPE_BOOLEAN] the last field is the value
    that [g_signal_emit] stored through its return location. *)
Inductive Signal :=
| KEY_PRESSED (keyval : guint) (keycode : guint16) (state : GdkModifierType)
              (handled : gboolean)
| KEY_RELEASED (keyval : guint) (keycode : guint16) (state : GdkModifierType)
| MODIFIERS (state : GdkModifierType) (handled : gboolean)
| IM_UPDATE
| FOCUS_IN
| FOCUS_OUT.

Inductive GtkPropagationPhase :=
| GTK_PHASE_CAPTURE
| GTK_PHASE_TARGET
| GTK_PHASE_BUBBLE.

(** What a call does to the world around the controller, in order. *)
Inductive Effect :=
| Emit (signal : Signal)
| Critical                      (* a failed g_return_val_if_fail *)
| Reset (im : GtkIMContext)     (* gtk_im_context_reset *)
| Realize (widget : GtkWidget)  (* gtk_widget_realize *)
| RunControllers (widget : GtkWidget) (event : GdkEvent)
                 (phase : GtkPropagationPhase).

(** The answers of the collaborators during one call.  Signal handlers
    receive the controller as it is at the time of the emission, and the
    value they yield is the one [g_signal_emit] reports (FALSE when no
    handler is connected).  What the handlers do on their own account, such
    as forwarding the event, is theirs and is not logged with the effects of
    the call. *)
Record Collaborators := {
  gtk_im_context_filter_keypress : GtkIMContext → GdkEvent → gboolean;
  on_key_pressed :
    GtkEventControllerKey → guint → guint16 → GdkModifierType → gboolean;
  on_modifiers : GtkEventControllerKey → GdkModifierType → gboolean;
  gtk_widget_get_realized : GtkWidget → gboolean;
  gtk_widget_run_controllers :
    GtkWidget → GdkEvent → GtkPropagationPhase → gboolean
}.

(** ** A state-and-log monad: the controller is threaded through, the
    effects are collected in order. *)

Definition M (A : Type) : Type :=
  GtkEventControllerKey → A * GtkEventControllerKey * list Effect.

Definition ret {A} (a : A) : M A := λ key, (a, key, []).

Definition bind {A B} (m : M A) (f : A → M B) : M B :=
  λ key,
    let '(a, key1, log1) := m key in
    let '(b, key2, log2) := f a key1 in
    (b, key2, log1 ++ log2).

Notation "x <- m ;; k" := (bind m (λ x, k))
  (at level 100, m at next level, right associativity).
Notation "m ;; k" := (bind m (λ _, k))
  (at level 100, right associativity).

Definition get : M GtkEventControllerKey := λ key, (key, key, []).
Definition modify (f : GtkEventControllerKey → GtkEventControllerKey) : M unit :=
  λ key, (tt, f key, []).
Definition tell (e : Effect) : M unit := λ key, (tt, key, [e]).

Definition result {A} (r : A * GtkEventControllerKey * list Effect) : A := r.1.1.
Definition after {A} (r : A * GtkEventControllerKey * list Effect) :
  GtkEventControllerKey := r.1.2.
Definition effects {A} (r : A * GtkEventControllerKey * list Effect) :
  list Effect := r.2.

Section Controller.

Variable env : Collaborators.

(** [g_signal_emit] for the signals without a return value. *)
Definition g_signal_emit (signal : Signal) : M unit := tell (Emit signal).

Definition g_signal_emit_MODIFIERS (state : GdkModifierType) : M gboolean :=
  key <- get ;;
  let handled := on_modifiers env key state in
  tell (Emit (MODIFIERS state handled)) ;;
  ret handled.

Definition g_signal_emit_KEY_PRESSED
    (keyval : guint) (keycode : guint16) (state : GdkModifierType) : M gboolean :=
  key <- get ;;
  let handled := on_key_pressed env key keyval keycode state in
  tell (Emit (KEY_PRESSED keyval keycode state handled)) ;;
  ret handled.

(** [key->im_context && gtk_im_context_filter_keypress (key->im_context, event)] *)
Definition im_filters (key : GtkEventControllerKey) (event : GdkEvent) : gboolean :=
  match im_context key with
  | Some im => gtk_im_context_filter_keypress env im event
  | None => FALSE
  end.

Definition gtk_event_controller_key_handle_event (event : GdkEvent) : M gboolean :=
  let event_type := gdk_event_get_event_type event in
  if decide (event_type = GDK_FOCUS_CHANGE) then
    match gdk_event_get_focus_in event with
    | Some true => g_signal_emit FOCUS_IN
    | _ => g_signal_emit FOCUS_OUT
    end ;;
    ret FALSE
  else if decide (event_type ≠ GDK_KEY_PRESS ∧ event_type ≠ GDK_KEY_RELEASE) then
    ret FALSE
  else
    key <- get ;;
    if im_filters key event then
      g_signal_emit IM_UPDATE ;;
      ret TRUE
    else
      match gdk_event_get_state event, gdk_event_get_key_is_modifier event with
      | Some state, Some is_modifier =>
          modify (with_current_event (Some event)) ;;
          (* the [if (is_modifier)] block: does it return TRUE? *)
          returned <-
            (if is_modifier then
               handled <-
                 (if decide (event_type = GDK_KEY_PRESS)
                  then g_signal_emit_MODIFIERS state
                  else ret TRUE) ;;
               ret handled
             else ret FALSE) ;;
          if returned then
            modify (with_current_event None) ;;
            ret TRUE
          else
            let keycode := gdk_event_get_keycode event in
            let keyval := gdk_event_get_keyval event in
            handled <-
              (if decide (event_type = GDK_KEY_PRESS) then
                 handled <- g_signal_emit_KEY_PRESSED keyval keycode state ;;
                 (if handled then
                    modify (λ key,
                      with_pressed_keys
                        (g_hash_table_add (pressed_keys key)
                                          (GUINT_TO_POINTER keyval)) key)
                  else ret tt) ;;
                 ret handled
               else if decide (event_type = GDK_KEY_RELEASE) then
                 g_signal_emit (KEY_RELEASED keyval keycode state) ;;
                 key <- get ;;
                 let handled :=
                   negb (N.eqb (g_hash_table_lookup (pressed_keys key)
                                                    (GUINT_TO_POINTER keyval))
                               NULL) in
                 modify (λ key,
                   with_pressed_keys
                     (g_hash_table_remove (pressed_keys key)
                                          (GUINT_TO_POINTER keyval)) key) ;;
                 ret handled
               else ret FALSE) ;;
            modify (with_current_event None) ;;
            ret handled
      | _, _ => ret FALSE
      end.

(** [gtk_event_controller_key_set_im_context]; [None] is the NULL context. *)
Definition gtk_event_controller_key_set_im_context
    (im : option GtkIMContext) : M unit :=
  controller <- get ;;
  match im_context controller with
  | Some old => tell (Reset old)
  | None => ret tt
  end ;;
  modify (with_im_context im).

Definition gtk_event_controller_key_get_im_context : M (option GtkIMContext) :=
  controller <- get ;;
  ret (im_context controller).

Definition run_controllers (widget : GtkWidget) (event : GdkEvent)
    (phase : GtkPropagationPhase) : M gboolean :=
  tell (RunControllers widget event phase) ;;
  ret (gtk_widget_run_controllers env widget event phase).

(** [gtk_event_controller_key_forward] from its third check on, for a
    controller and a widget that passed the two [GTK_IS_...] checks: a
    computation of [M] runs on a controller, and a [GtkWidget] is a widget.
    The check of the widget argument itself is added by
    [gtk_event_controller_key_forward_checked]. *)
Definition gtk_event_controller_key_forward (widget : GtkWidget) : M gboolean :=
  controller <- get ;;
  match current_event controller with
  | None => tell Critical ;; ret FALSE
  | Some event =>
      (if negb (gtk_widget_get_realized env widget)
       then tell (Realize widget)
       else ret tt) ;;
      capture <- run_controllers widget event GTK_PHASE_CAPTURE ;;
      if capture then ret TRUE
      else
        target <- run_controllers widget event GTK_PHASE_TARGET ;;
        if target then ret TRUE
        else
          bubble <- run_controllers widget event GTK_PHASE_BUBBLE ;;
          if bubble then ret TRUE
          else ret FALSE
  end.

(** [gtk_event_controller_key_get_group]; the failure value [FALSE] of a
    [guint] function is 0. *)
Definition gtk_event_controller_key_get_group : M guint :=
  controller <- get ;;
  match current_event controller with
  | None => tell Critical ;; ret 0%N
  | Some event => ret (gdk_event_get_key_group event)
  end.

End Controller.

(** [gtk_event_controller_key_init] on the zero-filled instance. *)
Definition gtk_event_controller_key_init : GtkEventControllerKey :=
  {| im_context := None;
     pressed_keys := g_hash_table_new;
     current_event := None |}.

(** ** Sequences of calls on one controller *)

Inductive Call :=
| HandleEvent (env : Collaborators) (event : GdkEvent)
| SetImContext (im : option GtkIMContext)
| Forward (env : Collaborators) (widget : GtkWidget)
| GetGroup.

Definition call (c : Call) : M unit :=
  match c with
  | HandleEvent env event => gtk_event_controller_key_handle_event env event ;; ret tt
  | SetImContext im => gtk_event_controller_key_set_im_context im
  | Forward env widget => gtk_event_controller_key_forward env widget ;; ret tt
  | GetGroup => gtk_event_controller_key_get_group ;; ret tt
  end.

Fixpoint calls (cs : list Call) : M unit :=
  match cs with
  | [] => ret tt
  | c :: cs => call c ;; calls cs
  end.

(** The key values that the emitted notifications leave pressed: a
    [key-pressed] voted handled puts its key value in, a [key-released]
    takes its key value out. *)
Definition tracked_step (held : gset guint) (e : Effect) : gset guint :=
  match e with
  | Emit (KEY_PRESSED keyval _ _ true) => {[ keyval ]} ∪ held
  | Emit (KEY_RELEASED keyval _ _) => held ∖ {[ keyval ]}
  | _ => held
  end.

Definition tracked_keys (log : list Effect) : gset guint :=
  foldl tracked_step ∅ log.

(** The pressed keys as the specification words them: a key value enters at
    a key-press event reported handled by an observer, and leaves at the
    next key-release event of that value given to the handler. *)
Definition press_reported_handled (log : list Effect) : bool :=
  existsb (λ e, match e with
                | Emit (KEY_PRESSED _ _ _ true) => true
                | _ => false
                end) log.

Definition spec_pressed_step (held : gset guint) (event : GdkEvent)
    (log : list Effect) : gset guint :=
  match gdk_event_get_event_type event with
  | GDK_KEY_PRESS =>
      if press_reported_handled log
      then {[ gdk_event_get_keyval event ]} ∪ held
      else held
  | GDK_KEY_RELEASE => held ∖ {[ gdk_event_get_keyval event ]}
  | _ => held
  end.

Fixpoint spec_pressed_keys (cs : list Call) (key : GtkEventControllerKey)
    (held : gset guint) : gset guint :=
  match cs with
  | [] => held
  | c :: cs =>
      let r := call c key in
      spec_pressed_keys cs (after r)
        match c with
        | HandleEvent _ event => spec_pressed_step held event (effects r)
        | _ => held
        end
  end.

(** Forwarding as the specification words it: the phases in dispatch order,
    and a dispatch that stops at the first phase that consumes; it yields
    the outcome and the phases that were run. *)
Definition phase_order : list GtkPropagationPhase :=
  [GTK_PHASE_CAPTURE; GTK_PHASE_TARGET; GTK_PHASE_BUBBLE].

Fixpoint dispatch_until_consumed (consumes : GtkPropagationPhase → bool)
    (phases : list GtkPropagationPhase) : bool * list GtkPropagationPhase :=
  match phases with
  | [] => (false, [])
  | phase :: phases =>
      if consumes phase then (true, [phase])
      else
        let '(consumed, ran) := dispatch_until_consumed consumes phases in
        (consumed, phase :: ran)
  end.

(** A table filled by [g_hash_table_add] alone maps each key to itself. *)
Definition stores_keys (table : GHashTable.t) : Prop :=
  ∀ key value : gpointer, table !! key = Some value → value = key.

(** ** Concrete events and collaborators used for the examples *)

Definition key_event (type : GdkEventType) (keyval : guint) (keycode : guint16)
    (state : option GdkModifierType) (is_modifier : option gboolean) : GdkEvent :=
  {| gdk_event_get_event_type := type;
     gdk_event_get_focus_in := None;
     gdk_event_get_state := state;
     gdk_event_get_key_is_modifier := is_modifier;
     gdk_event_get_keycode := keycode;
     gdk_event_get_keyval := keyval;
     gdk_event_get_key_group := 0 |}.

Definition focus_event (focus_in : option gboolean) : GdkEvent :=
  {| gdk_event_get_event_type := GDK_FOCUS_CHANGE;
     gdk_event_get_focus_in := focus_in;
     gdk_event_get_state := None;
     gdk_event_get_key_is_modifier := None;
     gdk_event_get_keycode := 0;
     gdk_event_get_keyval := 0;
     gdk_event_get_key_group := 0 |}.

(** Collaborators with constant answers: the input method's filter, the
    votes of the [key-pressed] and [modifiers] observers; widgets are not
    realized and only the target phase consumes. *)
Definition answering (filter key_pressed modifiers : gboolean) : Collaborators :=
  {| gtk_im_context_filter_keypress := λ _ _, filter;
     on_key_pressed := λ _ _ _ _, key_pressed;
     on_modifiers := λ _ _, modifiers;
     gtk_widget_get_realized := λ _, false;
     gtk_widget_run_controllers := λ _ _ phase,
       match phase with GTK_PHASE_TARGET => true | _ => false end |}.

(** A fresh controller with the input-method context [1] attached. *)
Definition with_input_method : GtkEventControllerKey :=
  with_im_context (Some 1%N) gtk_event_controller_key_init.

(** Keys of the scenarios: the letter A and the left Shift key. *)
Definition press_A := key_event GDK_KEY_PRESS 65 38 (Some 0%N) (Some false).
Definition release_A := key_event GDK_KEY_RELEASE 65 38 (Some 0%N) (Some false).
Definition press_Shift := key_event GDK_KEY_PRESS 65505 50 (Some 0%N) (Some true).
Definition release_Shift := key_event GDK_KEY_RELEASE 65505 50 (Some 1%N) (Some true).

(** A key press whose modifier state cannot be read. *)
Definition press_unreadable := key_event GDK_KEY_PRESS 65 38 None (Some false).

(** An input method is attached; the press of A is handled by an observer;
    the input method filters the release of A. *)
Definition filtered_release : list Call :=
  [SetImContext (Some 1%N);
   HandleEvent (answering false true false) press_A;
   HandleEvent (answering true true false) release_A].

(** ** Further definitions for the properties of whole calls *)

(** The effects that are signal emissions. *)
Definition is_emission (e : Effect) : bool :=
  match e with
  | Emit _ => true
  | _ => false
  end.

(** The input-method context that a sequence of calls leaves attached,
    [im] being the one attached before: the argument of the last call of
    the setter. *)
Fixpoint last_im_context (cs : list Call) (im : option GtkIMContext) :
    option GtkIMContext :=
  match cs with
  | [] => im
  | SetImContext im' :: cs => last_im_context cs im'
  | _ :: cs => last_im_context cs im
  end.

(** [gtk_event_controller_key_forward] with the check of its widget
    argument, [g_return_val_if_fail (GTK_IS_WIDGET (widget), FALSE)]: [None]
    is an argument that is NULL or not a widget. *)
Definition gtk_event_controller_key_forward_checked (env : Collaborators)
    (widget : option GtkWidget) : M gboolean :=
  match widget with
  | None => tell Critical ;; ret FALSE
  | Some widget => gtk_event_controller_key_forward env widget
  end.

(** An event that is neither a focus change nor a key event. *)
Definition other_event : GdkEvent :=
  {| gdk_event_get_event_type := GDK_OTHER_EVENT;
     gdk_event_get_focus_in := None;
     gdk_event_get_state := Some 0%N;
     gdk_event_get_key_is_modifier := Some false;
     gdk_event_get_keycode := 0;
     gdk_event_get_keyval := 65;
     gdk_event_get_key_group := 0 |}.

(** * Properties *)

Ltac unfold_m :=
  unfold g_signal_emit_KEY_PRESSED, g_signal_emit_MODIFIERS, g_signal_emit,
    run_controllers, bind, ret, get, modify, tell, result, after, effects in *.

Ltac unfold_handle :=
  unfold gtk_event_controller_key_handle_event; unfold_m.

(** Case analysis on whatever the goal still branches on. *)
Ltac by_cases :=
  repeat (simpl; try done;
          match goal with
          | |- context [match ?x with _ => _ end] =>
              lazymatch x with
              | context [match _ with _ => _ end] => fail
              | _ => destruct x eqn:?
              end
          end);
  simpl; try done.

(** Membership of an emission in an explicit list of effects. *)
Ltac invert_membership :=
  rewrite ?elem_of_cons, ?elem_of_nil; intros;
  repeat match goal with
         | H : _ ∨ _ |- _ => destruct H
         | H : False |- _ => destruct H
         | H : Emit _ = Emit _ |- _ => inversion H; clear H; subst
         end.

(** ** The paths of the handler through a key event *)

Section KeyEvent.

Variable env : Collaborators.
Variables (event : GdkEvent) (key : GtkEventControllerKey).

Hypothesis Hfilter : im_filters env key event = FALSE.

(** Step 4: an event whose state or classification cannot be read. *)
Lemma handle_event_unreadable :
  gdk_event_get_event_type event = GDK_KEY_PRESS ∨
    gdk_event_get_event_type event = GDK_KEY_RELEASE →
  gdk_event_get_state event = None ∨
    gdk_event_get_key_is_modifier event = None →
  gtk_event_controller_key_handle_event env event key = (FALSE, key, []).
Proof.
  intros Htype Hfail. unfold_handle.
  destruct Htype as [-> | ->]; simpl; rewrite Hfilter;
    destruct Hfail as [-> | ->]; try reflexivity;
    destruct (gdk_event_get_state event); reflexivity.
Qed.

Variable state : GdkModifierType.

Hypothesis Hstate : gdk_event_get_state event = Some state.

(** Step 6: the release of a modifier key. *)
Lemma handle_event_modifier_release :
  gdk_event_get_event_type event = GDK_KEY_RELEASE →
  gdk_event_get_key_is_modifier event = Some true →
  gtk_event_controller_key_handle_event env event key
    = (TRUE, with_current_event None key, []).
Proof.
  intros Htype Hmod. unfold_handle.
  rewrite Htype; simpl. rewrite Hfilter, Hstate, Hmod. reflexivity.
Qed.

(** Step 6: the press of a modifier key that the observers handle. *)
Lemma handle_event_modifier_press_handled :
  gdk_event_get_event_type event = GDK_KEY_PRESS →
  gdk_event_get_key_is_modifier event = Some true →
  on_modifiers env (during event key) state = TRUE →
  gtk_event_controller_key_handle_event env event key
    = (TRUE, with_current_event None key, [Emit (MODIFIERS state TRUE)]).
Proof.
  intros Htype Hmod Hvote. unfold_handle.
  rewrite Htype; simpl. rewrite Hfilter, Hstate, Hmod; simpl.
  fold (during event key). rewrite Hvote. reflexivity.
Qed.

(** Step 7: a key press that reaches the [key-pressed] emission: the key is
    not a modifier, or the [modifiers] observers did not handle it. *)
Lemma handle_event_key_press (is_modifier : gboolean) :
  gdk_event_get_event_type event = GDK_KEY_PRESS →
  gdk_event_get_key_is_modifier event = Some is_modifier →
  (is_modifier = TRUE → on_modifiers env (during event key) state = FALSE) →
  let keyval := gdk_event_get_keyval event in
  let keycode := gdk_event_get_keycode event in
  let handled := on_key_pressed env (during event key) keyval keycode state in
  gtk_event_controller_key_handle_event env event key
    = (handled,
       with_current_event None
         (if handled
          then with_pressed_keys
                 (g_hash_table_add (pressed_keys key) (GUINT_TO_POINTER keyval))
                 key
          else key),
       (if is_modifier then [Emit (MODIFIERS state FALSE)] else [])
         ++ [Emit (KEY_PRESSED keyval keycode state handled)]).
Proof.
  intros Htype Hmod Hvote keyval keycode handled. unfold_handle.
  rewrite Htype; simpl. rewrite Hfilter, Hstate, Hmod; simpl.
  fold (during event key) keyval keycode.
  destruct is_modifier; simpl.
  - rewrite (Hvote eq_refl); simpl. fold handled.
    destruct handled; reflexivity.
  - fold handled. destruct handled; reflexivity.
Qed.

(** Step 7: a key release that reaches the [key-released] emission. *)
Lemma handle_event_key_release :
  gdk_event_get_event_type event = GDK_KEY_RELEASE →
  gdk_event_get_key_is_modifier event = Some false →
  let keyval := gdk_event_get_keyval event in
  let keycode := gdk_event_get_keycode event in
  gtk_event_controller_key_handle_event env event key
    = (negb (g_hash_table_lookup (pressed_keys key) (GUINT_TO_POINTER keyval)
               =? NULL)%N,
       with_current_event None
         (with_pressed_keys
            (g_hash_table_remove (pressed_keys key) (GUINT_TO_POINTER keyval))
            key),
       [Emit (KEY_RELEASED keyval keycode state)]).
Proof.
  intros Htype Hmod. unfold_handle.
  rewrite Htype; simpl. rewrite Hfilter, Hstate, Hmod; simpl. reflexivity.
Qed.

End KeyEvent.

(** A [key-pressed] emission determines the outcome of the call that made
    it: the call returns the observers' vote, and the key value is added to
    the pressed keys when the vote is TRUE. *)
Lemma key_pressed_emitted env event key keyval keycode state handled :
  Emit (KEY_PRESSED keyval keycode state handled)
    ∈ effects (gtk_event_controller_key_handle_event env event key) →
  gdk_event_get_event_type event = GDK_KEY_PRESS ∧
  gdk_event_get_keyval event = keyval ∧
  result (gtk_event_controller_key_handle_event env event key) = handled ∧
  pressed_keys (after (gtk_event_controller_key_handle_event env event key))
    = if handled
      then g_hash_table_add (pressed_keys key) (GUINT_TO_POINTER keyval)
      else pressed_keys key.
Proof.
  unfold_handle.
  destruct (gdk_event_get_event_type event); simpl; by_cases;
    rewrite ?elem_of_cons, ?elem_of_nil; intros Hin;
    repeat match goal with
           | H : _ ∨ _ |- _ => destruct H
           | H : Emit _ = Emit _ |- _ => inversion H; clear H; subst
           end; try done.
Qed.

(** After a call of the handler no event is in flight, so that between two
    calls of the handler the current event is NULL. *)
Lemma handle_event_clears_current_event env event key :
  current_event key = None →
  current_event (after (gtk_event_controller_key_handle_event env event key))
    = None.
Proof.
  intros Hnone. unfold_handle.
  destruct (gdk_event_get_event_type event); simpl; by_cases.
Qed.

(** One call of the handler changes the pressed keys as its notifications
    say. *)
Lemma handle_event_tracks env event key :
  pressed_set (after (gtk_event_controller_key_handle_event env event key))
    = foldl tracked_step (pressed_set key)
        (effects (gtk_event_controller_key_handle_event env event key)).
Proof.
  unfold_handle. unfold pressed_set, keys.
  destruct (gdk_event_get_event_type event); simpl; by_cases;
    unfold g_hash_table_add, g_hash_table_remove;
    rewrite ?dom_insert_L, ?dom_delete_L; done.
Qed.

Lemma call_tracks c key :
  pressed_set (after (call c key))
    = foldl tracked_step (pressed_set key) (effects (call c key)).
Proof.
  destruct c as [env event | im | env widget |]; unfold call.
  - pose proof (handle_event_tracks env event key) as Hstep.
    unfold bind, ret, after, effects in *.
    destruct (gtk_event_controller_key_handle_event env event key)
      as [[handled key'] log]; simpl in *.
    by rewrite app_nil_r.
  - unfold gtk_event_controller_key_set_im_context. unfold_m.
    by destruct (im_context key).
  - unfold gtk_event_controller_key_forward. unfold_m. by_cases.
  - unfold gtk_event_controller_key_get_group. unfold_m. by_cases.
Qed.

Lemma calls_track cs : ∀ key,
  pressed_set (after (calls cs key))
    = foldl tracked_step (pressed_set key) (effects (calls cs key)).
Proof.
  induction cs as [| c cs IH]; intros key; [done |].
  pose proof (call_tracks c key) as Hstep.
  specialize (IH (after (call c key))).
  simpl. unfold bind, after, effects in *.
  destruct (call c key) as [[[] key1] log1]; simpl in *.
  destruct (calls cs key1) as [[[] key2] log2]; simpl in *.
  by rewrite foldl_app, <- Hstep.
Qed.

(** Between the calls no event is in flight. *)
Lemma call_leaves_no_event c key :
  current_event key = None → current_event (after (call c key)) = None.
Proof.
  intros Hnone. destruct c as [env event | im | env widget |]; unfold call.
  - pose proof (handle_event_clears_current_event env event key Hnone) as Hstep.
    unfold bind, ret, after in *.
    by destruct (gtk_event_controller_key_handle_event env event key)
      as [[handled key'] log].
  - unfold gtk_event_controller_key_set_im_context. unfold_m.
    by destruct (im_context key).
  - unfold gtk_event_controller_key_forward. unfold_m. by rewrite Hnone.
  - unfold gtk_event_controller_key_get_group. unfold_m. by rewrite Hnone.
Qed.

Lemma calls_leave_no_event cs : ∀ key,
  current_event key = None → current_event (after (calls cs key)) = None.
Proof.
  induction cs as [| c cs IH]; intros key Hnone; [done |].
  pose proof (call_leaves_no_event c key Hnone) as Hstep.
  specialize (IH (after (call c key)) Hstep).
  simpl. unfold bind, after in *.
  destruct (call c key) as [[[] key1] log1]; simpl in *.
  by destruct (calls cs key1) as [[[] key2] log2].
Qed.

(** The pressed keys are only ever added to by [g_hash_table_add]. *)
Lemma stores_keys_add table key :
  stores_keys table → stores_keys (g_hash_table_add table key).
Proof.
  intros Htable k v. unfold g_hash_table_add.
  rewrite lookup_insert. case_decide; [congruence | apply Htable].
Qed.

Lemma stores_keys_remove table key :
  stores_keys table → stores_keys (g_hash_table_remove table key).
Proof.
  intros Htable k v. unfold g_hash_table_remove.
  rewrite lookup_delete. case_decide; [done | apply Htable].
Qed.


Lemma handle_event_stores_keys env event key :
  stores_keys (pressed_keys key) →
  stores_keys
    (pressed_keys (after (gtk_event_controller_key_handle_event env event key))).
Proof.
  intros Htable. unfold_handle.
  destruct (gdk_event_get_event_type event); simpl; by_cases;
    auto using stores_keys_add, stores_keys_remove.
Qed.

Lemma call_stores_keys c key :
  stores_keys (pressed_keys key) →
  stores_keys (pressed_keys (after (call c key))).
Proof.
  intros Htable. destruct c as [env event | im | env widget |]; unfold call.
  - pose proof (handle_event_stores_keys env event key Htable) as Hstep.
    unfold bind, ret, after in *.
    by destruct (gtk_event_controller_key_handle_event env event key)
      as [[handled key'] log].
  - unfold gtk_event_controller_key_set_im_context. unfold_m.
    by destruct (im_context key).
  - unfold gtk_event_controller_key_forward. unfold_m. by_cases.
  - unfold gtk_event_controller_key_get_group. unfold_m. by_cases.
Qed.

Lemma calls_store_keys cs : ∀ key,
  stores_keys (pressed_keys key) →
  stores_keys (pressed_keys (after (calls cs key))).
Proof.
  induction cs as [| c cs IH]; intros key Htable; [done |].
  pose proof (call_stores_keys c key Htable) as Hstep.
  specialize (IH (after (call c key)) Hstep).
  simpl. unfold bind, after in *.
  destruct (call c key) as [[[] key1] log1]; simpl in *.
  by destruct (calls cs key1) as [[[] key2] log2].
Qed.

Lemma init_stores_keys : stores_keys (pressed_keys gtk_event_controller_key_init).
Proof. intros k v. unfold gtk_event_controller_key_init; simpl. done. Qed.

(** ** Step 1: focus changes *)

(** C6.  A focus-change event is never consumed and leaves the controller as
    it was; exactly one notification is emitted: [focus-in] when the focus
    direction is read and says that focus was gained, [focus-out] otherwise. *)
Theorem focus_change_not_consumed env event key :
  gdk_event_get_event_type event = GDK_FOCUS_CHANGE →
  ∃ signal,
    gtk_event_controller_key_handle_event env event key
      = (FALSE, key, [Emit signal]) ∧
    (gdk_event_get_focus_in event = Some true → signal = FOCUS_IN) ∧
    (gdk_event_get_focus_in event ≠ Some true → signal = FOCUS_OUT).
Proof.
  intros Htype. unfold_handle. rewrite Htype. simpl.
  destruct (gdk_event_get_focus_in event) as [[|]|] eqn:Hin; simpl.
  - exists FOCUS_IN. split_and!; [done | done | congruence].
  - exists FOCUS_OUT. split_and!; [done | congruence | done].
  - exists FOCUS_OUT. split_and!; [done | congruence | done].
Qed.

Lemma focus_change_not_consumed_witness :
  gdk_event_get_event_type (focus_event (Some true)) = GDK_FOCUS_CHANGE ∧
  ∃ signal,
    gtk_event_controller_key_handle_event (answering false true true)
        (focus_event (Some true)) gtk_event_controller_key_init
      = (FALSE, gtk_event_controller_key_init, [Emit signal]) ∧
    (Some true = Some true → signal = FOCUS_IN) ∧
    (Some true ≠ Some true → signal = FOCUS_OUT).
Proof.
  split; [reflexivity |].
  apply (focus_change_not_consumed (answering false true true)
           (focus_event (Some true)) gtk_event_controller_key_init).
  reflexivity.
Defined.

(** ** Step 3: the input-method filter *)

(** C5.  A key-press or key-release event that the attached input-method
    context filters gives [im-update] as its only notification, is consumed,
    and leaves the whole controller, the pressed keys included, as it was. *)
Theorem im_filtered_only_im_update env event key im :
  gdk_event_get_event_type event = GDK_KEY_PRESS ∨
    gdk_event_get_event_type event = GDK_KEY_RELEASE →
  im_context key = Some im →
  gtk_im_context_filter_keypress env im event = TRUE →
  gtk_event_controller_key_handle_event env event key
    = (TRUE, key, [Emit IM_UPDATE]).
Proof.
  intros Htype Him Hfilter. unfold_handle.
  destruct Htype as [-> | ->]; simpl;
    unfold im_filters; rewrite Him, Hfilter; reflexivity.
Qed.

Lemma im_filtered_only_im_update_witness :
  (gdk_event_get_event_type release_A = GDK_KEY_PRESS ∨
     gdk_event_get_event_type release_A = GDK_KEY_RELEASE) ∧
  im_context with_input_method = Some 1%N ∧
  gtk_im_context_filter_keypress (answering true true true) 1%N release_A = TRUE ∧
  gtk_event_controller_key_handle_event (answering true true true) release_A
      with_input_method
    = (TRUE, with_input_method, [Emit IM_UPDATE]).
Proof.
  split_and!; [right; reflexivity | reflexivity | reflexivity |].
  apply (im_filtered_only_im_update (answering true true true) release_A
           with_input_method 1%N);
    [right; reflexivity | reflexivity | reflexivity].
Defined.

(** ** Step 4: unreadable events *)

(** C7, as stated, fails: the input-method filter is asked before the state
    is read, so an unreadable key press that the input method filters is
    consumed. *)
Lemma unreadable_event_counterexample :
  gdk_event_get_event_type press_unreadable = GDK_KEY_PRESS ∧
  gdk_event_get_state press_unreadable = None ∧
  result (gtk_event_controller_key_handle_event (answering true false false)
            press_unreadable with_input_method) ≠ FALSE.
Proof. split_and!; [reflexivity | reflexivity | vm_compute; discriminate]. Qed.

(** C7, amended.  A key-press or key-release event that the input method
    does not filter and whose modifier state or modifier-key classification
    cannot be read is not consumed, has no effect at all (no notification,
    no critical warning) and leaves the controller, the pressed keys
    included, as it was. *)
Theorem unreadable_event_not_consumed env event key :
  gdk_event_get_event_type event = GDK_KEY_PRESS ∨
    gdk_event_get_event_type event = GDK_KEY_RELEASE →
  im_filters env key event = FALSE →
  gdk_event_get_state event = None ∨
    gdk_event_get_key_is_modifier event = None →
  gtk_event_controller_key_handle_event env event key = (FALSE, key, []).
Proof.
  intros Htype Hfilter Hfail. by apply handle_event_unreadable.
Qed.

Lemma unreadable_event_not_consumed_witness :
  (gdk_event_get_event_type press_unreadable = GDK_KEY_PRESS ∨
     gdk_event_get_event_type press_unreadable = GDK_KEY_RELEASE) ∧
  im_filters (answering false true true) with_input_method press_unreadable
    = FALSE ∧
  (gdk_event_get_state press_unreadable = None ∨
     gdk_event_get_key_is_modifier press_unreadable = None) ∧
  gtk_event_controller_key_handle_event (answering false true true)
      press_unreadable with_input_method
    = (FALSE, with_input_method, []).
Proof.
  split_and!; [left; reflexivity | reflexivity | left; reflexivity |].
  apply (unreadable_event_not_consumed (answering false true true)
           press_unreadable with_input_method);
    [left; reflexivity | reflexivity | left; reflexivity].
Defined.

(** ** Forwarding and the key group *)

(** C8.  With no event in flight, forwarding fails its precondition check:
    it returns FALSE, and the key-group query returns 0; the only effect
    of either is the critical warning, no widget is realized, no phase is
    run, and the controller is as it was. *)
Theorem no_event_in_flight_fails env widget key :
  current_event key = None →
  gtk_event_controller_key_forward env widget key = (FALSE, key, [Critical]) ∧
  gtk_event_controller_key_get_group key = (0%N, key, [Critical]).
Proof.
  intros Hnone.
  unfold gtk_event_controller_key_forward, gtk_event_controller_key_get_group.
  unfold_m. rewrite Hnone. done.
Qed.

Lemma no_event_in_flight_fails_witness :
  current_event gtk_event_controller_key_init = None ∧
  gtk_event_controller_key_forward (answering false true true) 7%N
      gtk_event_controller_key_init
    = (FALSE, gtk_event_controller_key_init, [Critical]) ∧
  gtk_event_controller_key_get_group gtk_event_controller_key_init
    = (0%N, gtk_event_controller_key_init, [Critical]).
Proof.
  split; [reflexivity |].
  apply (no_event_in_flight_fails (answering false true true) 7%N
           gtk_event_controller_key_init).
  reflexivity.
Defined.

(** C9.  With an event in flight, forwarding realizes the widget unless it
    is realized already, then runs the controllers of the widget on the
    event in flight, phase by phase in the order capture, target, bubble,
    up to and including the first phase that consumes the event; it returns
    TRUE when a phase consumed the event and FALSE when none did. *)
Theorem forward_dispatches_in_phase_order env widget key event :
  current_event key = Some event →
  let '(consumed, ran) :=
    dispatch_until_consumed (gtk_widget_run_controllers env widget event)
                            phase_order in
  gtk_event_controller_key_forward env widget key
    = (consumed, key,
       (if gtk_widget_get_realized env widget then [] else [Realize widget])
         ++ map (RunControllers widget event) ran).
Proof.
  intros Hevent. unfold gtk_event_controller_key_forward. unfold_m.
  rewrite Hevent. simpl.
  destruct (gtk_widget_get_realized env widget); simpl;
    destruct (gtk_widget_run_controllers env widget event GTK_PHASE_CAPTURE);
    simpl; try reflexivity;
    destruct (gtk_widget_run_controllers env widget event GTK_PHASE_TARGET);
    simpl; try reflexivity;
    destruct (gtk_widget_run_controllers env widget event GTK_PHASE_BUBBLE);
    reflexivity.
Qed.

Lemma forward_dispatches_in_phase_order_witness :
  current_event (with_current_event (Some press_A) gtk_event_controller_key_init)
    = Some press_A ∧
  gtk_event_controller_key_forward (answering false true true) 7%N
      (with_current_event (Some press_A) gtk_event_controller_key_init)
    = (TRUE, with_current_event (Some press_A) gtk_event_controller_key_init,
       [Realize 7%N;
        RunControllers 7%N press_A GTK_PHASE_CAPTURE;
        RunControllers 7%N press_A GTK_PHASE_TARGET]).
Proof.
  split; [reflexivity |].
  apply (forward_dispatches_in_phase_order (answering false true true) 7%N
           (with_current_event (Some press_A) gtk_event_controller_key_init)
           press_A).
  reflexivity.
Defined.

(** ** Step 6: pure modifier keys *)

(** C2, as stated, fails: when the [modifiers] observers do not handle the
    press of a modifier key, the handler goes on to emit [key-pressed] and
    returns the vote of that emission, not the one of [modifiers]. *)
Lemma modifier_press_counterexample :
  let env := answering false true false in
  let seen := during press_Shift gtk_event_controller_key_init in
  let r := gtk_event_controller_key_handle_event env press_Shift
             gtk_event_controller_key_init in
  gdk_event_get_event_type press_Shift = GDK_KEY_PRESS ∧
  gdk_event_get_key_is_modifier press_Shift = Some true ∧
  im_filters env gtk_event_controller_key_init press_Shift = FALSE ∧
  Emit (KEY_PRESSED 65505 50 0 TRUE) ∈ effects r ∧
  result r ≠ on_modifiers env seen 0%N.
Proof.
  split_and!; [reflexivity | reflexivity | reflexivity | | vm_compute; discriminate].
  apply list_elem_of_In. vm_compute. right; left; reflexivity.
Qed.

(** C2, amended.  For a key event of a pure modifier key that the input
    method does not filter and whose state is readable: a release emits
    nothing and is consumed; a press emits [modifiers] with the new state,
    and when the observers handle it, nothing else is emitted and the press
    is consumed; when they do not, the press is handled as the press of any
    other key: [key-pressed] is emitted, its vote is returned, and the key
    value is recorded as pressed when the vote is TRUE. *)
Theorem pure_modifier_key env event key state :
  im_filters env key event = FALSE →
  gdk_event_get_state event = Some state →
  gdk_event_get_key_is_modifier event = Some true →
  let keyval := gdk_event_get_keyval event in
  let keycode := gdk_event_get_keycode event in
  (gdk_event_get_event_type event = GDK_KEY_RELEASE →
   gtk_event_controller_key_handle_event env event key
     = (TRUE, with_current_event None key, [])) ∧
  (gdk_event_get_event_type event = GDK_KEY_PRESS →
   on_modifiers env (during event key) state = TRUE →
   gtk_event_controller_key_handle_event env event key
     = (TRUE, with_current_event None key, [Emit (MODIFIERS state TRUE)])) ∧
  (gdk_event_get_event_type event = GDK_KEY_PRESS →
   on_modifiers env (during event key) state = FALSE →
   let handled := on_key_pressed env (during event key) keyval keycode state in
   gtk_event_controller_key_handle_event env event key
     = (handled,
        with_current_event None
          (if handled
           then with_pressed_keys
                  (g_hash_table_add (pressed_keys key) (GUINT_TO_POINTER keyval))
                  key
           else key),
        [Emit (MODIFIERS state FALSE);
         Emit (KEY_PRESSED keyval keycode state handled)])).
Proof.
  intros Hfilter Hstate Hmod. split_and!.
  - intros Htype. by apply handle_event_modifier_release with state.
  - intros Htype Hvote. by apply handle_event_modifier_press_handled.
  - intros Htype Hvote.
    by apply (handle_event_key_press env event key Hfilter state Hstate true).
Qed.

Lemma pure_modifier_key_witness :
  let env := answering false true true in
  let key := gtk_event_controller_key_init in
  im_filters env key press_Shift = FALSE ∧
  gdk_event_get_state press_Shift = Some 0%N ∧
  gdk_event_get_key_is_modifier press_Shift = Some true ∧
  gtk_event_controller_key_handle_event env press_Shift key
    = (TRUE, with_current_event None key, [Emit (MODIFIERS 0 TRUE)]).
Proof.
  split_and!; [reflexivity | reflexivity | reflexivity |].
  apply (pure_modifier_key (answering false true true) press_Shift
           gtk_event_controller_key_init 0%N);
    reflexivity.
Defined.

(** ** Step 7: presses and releases *)

(** C4, as stated, fails: the release of a modifier key is always reported
    consumed, whether or not its key value is among the pressed keys. *)
Lemma release_unpressed_counterexample :
  let r := gtk_event_controller_key_handle_event (answering false false false)
             release_Shift gtk_event_controller_key_init in
  gdk_event_get_event_type release_Shift = GDK_KEY_RELEASE ∧
  (gdk_event_get_keyval release_Shift ∉ pressed_set gtk_event_controller_key_init) ∧
  result r ≠ FALSE.
Proof.
  split_and!; [reflexivity | | vm_compute; discriminate].
  apply (bool_decide_unpack _). by vm_compute.
Qed.

(** C4, amended.  The release of a key value that is not among the pressed
    keys is not consumed, provided that the input method does not filter
    the event and that the key is not classified as a pure modifier. *)
Theorem release_of_unpressed_key env event key :
  gdk_event_get_event_type event = GDK_KEY_RELEASE →
  gdk_event_get_keyval event ∉ pressed_set key →
  im_filters env key event = FALSE →
  gdk_event_get_key_is_modifier event ≠ Some true →
  result (gtk_event_controller_key_handle_event env event key) = FALSE.
Proof.
  intros Htype Hnotin Hfilter Hmod.
  destruct (gdk_event_get_state event) as [state|] eqn:Hstate;
    [destruct (gdk_event_get_key_is_modifier event) as [[|]|] eqn:Hclass |].
  - done.
  - rewrite (handle_event_key_release env event key Hfilter state) by done.
    unfold result, g_hash_table_lookup, GUINT_TO_POINTER; simpl.
    unfold pressed_set, keys in Hnotin.
    apply not_elem_of_dom in Hnotin. by rewrite Hnotin.
  - by rewrite handle_event_unreadable; [| | right | right].
  - by rewrite handle_event_unreadable; [| | right | left].
Qed.

Lemma release_of_unpressed_key_witness :
  gdk_event_get_event_type release_A = GDK_KEY_RELEASE ∧
  (gdk_event_get_keyval release_A ∉ pressed_set gtk_event_controller_key_init) ∧
  im_filters (answering false true true) gtk_event_controller_key_init release_A
    = FALSE ∧
  gdk_event_get_key_is_modifier release_A ≠ Some true ∧
  result (gtk_event_controller_key_handle_event (answering false true true)
            release_A gtk_event_controller_key_init) = FALSE.
Proof.
  assert (Hnotin : gdk_event_get_keyval release_A
                     ∉ pressed_set gtk_event_controller_key_init)
    by (apply (bool_decide_unpack _); vm_compute; exact I).
  split_and!; [reflexivity | exact Hnotin | reflexivity | discriminate |].
  apply (release_of_unpressed_key (answering false true true) release_A
           gtk_event_controller_key_init);
    [reflexivity | exact Hnotin | reflexivity | discriminate].
Defined.

(** C3, as stated, fails: a release that the input method filters is
    consumed, but the key value stays among the pressed keys. *)
Lemma press_then_release_counterexample :
  let r1 := gtk_event_controller_key_handle_event (answering false true false)
              press_A with_input_method in
  let r2 := gtk_event_controller_key_handle_event (answering true true false)
              release_A (after r1) in
  Emit (KEY_PRESSED 65 38 0 TRUE) ∈ effects r1 ∧
  gdk_event_get_event_type release_A = GDK_KEY_RELEASE ∧
  gdk_event_get_keyval release_A = 65%N ∧
  65%N ∈ pressed_set (after r2).
Proof.
  split_and!; [| reflexivity | reflexivity |].
  - apply list_elem_of_In. vm_compute. left; reflexivity.
  - apply (bool_decide_unpack _). by vm_compute.
Qed.

(** C3, amended.  When a call of the handler emits [key-pressed] for a key
    value [k] other than 0 and the observers report it handled, and the next
    call is given a key release of [k] that the input method does not
    filter, whose state is readable and whose key is not a pure modifier,
    then the release is consumed and [k] is not among the pressed keys
    afterwards. *)
Theorem consumed_press_then_release
    env1 env2 press release key k keycode state state' :
  let r1 := gtk_event_controller_key_handle_event env1 press key in
  let r2 := gtk_event_controller_key_handle_event env2 release (after r1) in
  Emit (KEY_PRESSED k keycode state TRUE) ∈ effects r1 →
  k ≠ 0%N →
  gdk_event_get_event_type release = GDK_KEY_RELEASE →
  gdk_event_get_keyval release = k →
  im_filters env2 (after r1) release = FALSE →
  gdk_event_get_state release = Some state' →
  gdk_event_get_key_is_modifier release = Some false →
  result r2 = TRUE ∧ k ∉ pressed_set (after r2).
Proof.
  intros r1 r2 Hpressed Hk Htype Hkeyval Hfilter Hstate Hclass.
  apply key_pressed_emitted in Hpressed as (_ & _ & _ & Htable).
  fold r1 in Htable. subst r2.
  rewrite (handle_event_key_release env2 release (after r1) Hfilter state')
    by done.
  unfold result, after, pressed_set, keys in *; simpl.
  rewrite Htable, Hkeyval.
  unfold g_hash_table_lookup, g_hash_table_add, g_hash_table_remove,
    GUINT_TO_POINTER, NULL.
  rewrite lookup_insert_eq; simpl. split.
  - by destruct (N.eqb_spec k 0).
  - rewrite dom_delete_L. intros [_ Hout]%elem_of_difference.
    by apply Hout, elem_of_singleton.
Qed.

Lemma consumed_press_then_release_witness :
  let env := answering false true false in
  let r1 := gtk_event_controller_key_handle_event env press_A
              gtk_event_controller_key_init in
  let r2 := gtk_event_controller_key_handle_event env release_A (after r1) in
  Emit (KEY_PRESSED 65 38 0 TRUE) ∈ effects r1 ∧
  65%N ≠ 0%N ∧
  gdk_event_get_event_type release_A = GDK_KEY_RELEASE ∧
  gdk_event_get_keyval release_A = 65%N ∧
  im_filters env (after r1) release_A = FALSE ∧
  gdk_event_get_state release_A = Some 0%N ∧
  gdk_event_get_key_is_modifier release_A = Some false ∧
  result r2 = TRUE ∧ 65%N ∉ pressed_set (after r2).
Proof.
  assert (Hpressed :
    Emit (KEY_PRESSED 65 38 0 TRUE)
      ∈ effects (gtk_event_controller_key_handle_event
                   (answering false true false) press_A
                   gtk_event_controller_key_init))
    by (apply list_elem_of_In; vm_compute; left; reflexivity).
  split_and!;
    [exact Hpressed | discriminate | reflexivity | reflexivity | reflexivity
    | reflexivity | reflexivity | |];
    apply (consumed_press_then_release
             (answering false true false) (answering false true false)
             press_A release_A gtk_event_controller_key_init
             65%N 38%N 0%N 0%N);
    first [exact Hpressed | discriminate | reflexivity].
Defined.

(** The scenario of the letter A: its press, handled by an observer, leaves
    exactly 65 pressed; its release is consumed and leaves nothing pressed. *)
Example press_A_release_A :
  let env := answering false true false in
  let r1 := gtk_event_controller_key_handle_event env press_A
              gtk_event_controller_key_init in
  let r2 := gtk_event_controller_key_handle_event env release_A (after r1) in
  result r1 = TRUE ∧ pressed_set (after r1) = {[ 65%N ]} ∧
  result r2 = TRUE ∧ pressed_set (after r2) = ∅.
Proof. split_and!; reflexivity. Qed.




(** ** The pressed keys over the life of a controller *)

(** C1, as stated, fails: after the three calls the release of A has been
    given to the handler, which reported it consumed, and 65 is still among
    the pressed keys. *)
Lemma pressed_keys_invariant_counterexample :
  let key := after (calls filtered_release gtk_event_controller_key_init) in
  65%N ∈ pressed_set key ∧
  (65%N ∉ spec_pressed_keys filtered_release gtk_event_controller_key_init ∅) ∧
  pressed_set key
    ≠ spec_pressed_keys filtered_release gtk_event_controller_key_init ∅.
Proof.
  split_and!; apply (bool_decide_unpack _); by vm_compute.
Qed.

(** C1, amended.  After any sequence of calls on a fresh controller (the
    handler, with any events and any answers of the collaborators, the
    setter of the input method, forwarding, the key-group query), the
    pressed keys are exactly the key values for which [key-pressed] was
    emitted and reported handled with no later [key-released] emission for
    the same value: a release that the handler is given but does not
    announce (filtered by the input method, unreadable, or of a pure
    modifier key) leaves the pressed keys as they are. *)
Theorem pressed_keys_track_notifications cs :
  pressed_set (after (calls cs gtk_event_controller_key_init))
    = tracked_keys (effects (calls cs gtk_event_controller_key_init)).
Proof.
  rewrite calls_track. unfold tracked_keys. f_equal.
Qed.

(** * Further properties of the handler *)

(** ** Step 2: events that are not for this controller *)

(** X1.  An event that is neither a focus change, a key press nor a key
    release is not consumed: nothing is emitted, the input method is not
    consulted and the controller is as it was. *)
Theorem other_event_ignored env event key :
  gdk_event_get_event_type event ≠ GDK_FOCUS_CHANGE →
  gdk_event_get_event_type event ≠ GDK_KEY_PRESS →
  gdk_event_get_event_type event ≠ GDK_KEY_RELEASE →
  gtk_event_controller_key_handle_event env event key = (FALSE, key, []).
Proof.
  intros Hfocus Hpress Hrelease. unfold_handle.
  destruct (gdk_event_get_event_type event); done.
Qed.

Lemma other_event_ignored_witness :
  gdk_event_get_event_type other_event ≠ GDK_FOCUS_CHANGE ∧
  gdk_event_get_event_type other_event ≠ GDK_KEY_PRESS ∧
  gdk_event_get_event_type other_event ≠ GDK_KEY_RELEASE ∧
  gtk_event_controller_key_handle_event (answering true true true) other_event
      with_input_method
    = (FALSE, with_input_method, []).
Proof.
  split_and!; [discriminate | discriminate | discriminate |].
  apply (other_event_ignored (answering true true true) other_event
           with_input_method);
    discriminate.
Defined.

(** ** What the handler emits, and when *)

(** X2.  Whatever the event, the handler only emits signals, two at most:
    it logs no failed precondition, resets no input method, realizes no
    widget and runs no controllers. *)
Theorem handle_event_only_emits env event key :
  Forall (λ e, is_emission e = true)
    (effects (gtk_event_controller_key_handle_event env event key)) ∧
  length (effects (gtk_event_controller_key_handle_event env event key)) ≤ 2.
Proof.
  unfold_handle.
  destruct (gdk_event_get_event_type event); simpl; by_cases;
    split; repeat constructor.
Qed.

(** X3.  [im-update] is emitted only for a key press or release that the
    attached input-method context filtered. *)
Theorem im_update_only_when_filtered env event key :
  Emit IM_UPDATE
    ∈ effects (gtk_event_controller_key_handle_event env event key) →
  (gdk_event_get_event_type event = GDK_KEY_PRESS ∨
     gdk_event_get_event_type event = GDK_KEY_RELEASE) ∧
  ∃ im, im_context key = Some im ∧
        gtk_im_context_filter_keypress env im event = TRUE.
Proof.
  unfold_handle. unfold im_filters.
  destruct (gdk_event_get_event_type event); simpl; by_cases;
    invert_membership; try done; eauto.
Qed.

Lemma im_update_only_when_filtered_witness :
  Emit IM_UPDATE
    ∈ effects (gtk_event_controller_key_handle_event (answering true true true)
                 release_A with_input_method) ∧
  (gdk_event_get_event_type release_A = GDK_KEY_PRESS ∨
     gdk_event_get_event_type release_A = GDK_KEY_RELEASE) ∧
  ∃ im, im_context with_input_method = Some im ∧
        gtk_im_context_filter_keypress (answering true true true) im release_A
          = TRUE.
Proof.
  assert (Hemitted :
    Emit IM_UPDATE
      ∈ effects (gtk_event_controller_key_handle_event
                   (answering true true true) release_A with_input_method))
    by (apply list_elem_of_In; vm_compute; left; reflexivity).
  split; [exact Hemitted |].
  apply (im_update_only_when_filtered (answering true true true) release_A
           with_input_method Hemitted).
Defined.

(** X4.  [key-released] is emitted only for a key release that the input
    method did not filter and whose key is read as not being a modifier; it
    carries the key value, the key code and the state of the event. *)
Theorem key_released_only_for_plain_release env event key keyval keycode state :
  Emit (KEY_RELEASED keyval keycode state)
    ∈ effects (gtk_event_controller_key_handle_event env event key) →
  gdk_event_get_event_type event = GDK_KEY_RELEASE ∧
  im_filters env key event = FALSE ∧
  gdk_event_get_key_is_modifier event = Some false ∧
  gdk_event_get_keyval event = keyval ∧
  gdk_event_get_keycode event = keycode ∧
  gdk_event_get_state event = Some state.
Proof.
  unfold_handle.
  destruct (gdk_event_get_event_type event); simpl; by_cases;
    invert_membership; done.
Qed.

Lemma key_released_only_for_plain_release_witness :
  Emit (KEY_RELEASED 65 38 0)
    ∈ effects (gtk_event_controller_key_handle_event (answering false true true)
                 release_A gtk_event_controller_key_init) ∧
  gdk_event_get_event_type release_A = GDK_KEY_RELEASE ∧
  im_filters (answering false true true) gtk_event_controller_key_init release_A
    = FALSE ∧
  gdk_event_get_key_is_modifier release_A = Some false ∧
  gdk_event_get_keyval release_A = 65%N ∧
  gdk_event_get_keycode release_A = 38%N ∧
  gdk_event_get_state release_A = Some 0%N.
Proof.
  assert (Hemitted :
    Emit (KEY_RELEASED 65 38 0)
      ∈ effects (gtk_event_controller_key_handle_event
                   (answering false true true) release_A
                   gtk_event_controller_key_init))
    by (apply list_elem_of_In; vm_compute; left; reflexivity).
  split; [exact Hemitted |].
  apply (key_released_only_for_plain_release (answering false true true)
           release_A gtk_event_controller_key_init 65%N 38%N 0%N Hemitted).
Defined.

(** X5.  [modifiers] is emitted only for the press of a key read as a pure
    modifier, never for a release; it carries the state of the event, and
    the value recorded for it is the answer of the observers, who see the
    controller with the event in flight. *)
Theorem modifiers_only_for_modifier_press env event key state handled :
  Emit (MODIFIERS state handled)
    ∈ effects (gtk_event_controller_key_handle_event env event key) →
  gdk_event_get_event_type event = GDK_KEY_PRESS ∧
  im_filters env key event = FALSE ∧
  gdk_event_get_key_is_modifier event = Some true ∧
  gdk_event_get_state event = Some state ∧
  handled = on_modifiers env (during event key) state.
Proof.
  unfold_handle. unfold during.
  destruct (gdk_event_get_event_type event); simpl; by_cases;
    invert_membership; done.
Qed.

Lemma modifiers_only_for_modifier_press_witness :
  Emit (MODIFIERS 0 TRUE)
    ∈ effects (gtk_event_controller_key_handle_event (answering false true true)
                 press_Shift gtk_event_controller_key_init) ∧
  gdk_event_get_event_type press_Shift = GDK_KEY_PRESS ∧
  im_filters (answering false true true) gtk_event_controller_key_init
    press_Shift = FALSE ∧
  gdk_event_get_key_is_modifier press_Shift = Some true ∧
  gdk_event_get_state press_Shift = Some 0%N ∧
  TRUE = on_modifiers (answering false true true)
           (during press_Shift gtk_event_controller_key_init) 0%N.
Proof.
  assert (Hemitted :
    Emit (MODIFIERS 0 TRUE)
      ∈ effects (gtk_event_controller_key_handle_event
                   (answering false true true) press_Shift
                   gtk_event_controller_key_init))
    by (apply list_elem_of_In; vm_compute; left; reflexivity).
  split; [exact Hemitted |].
  apply (modifiers_only_for_modifier_press (answering false true true)
           press_Shift gtk_event_controller_key_init 0%N TRUE Hemitted).
Defined.

(** X6.  [key-pressed] is emitted only for a key press that the input
    method did not filter; it carries the key code and the state of the
    event, and the value recorded for it is the answer of the observers,
    given the controller with the event in flight.  For a modifier key it is
    emitted only after the [modifiers] observers declined. *)
Theorem key_pressed_only_for_press env event key keyval keycode state handled :
  Emit (KEY_PRESSED keyval keycode state handled)
    ∈ effects (gtk_event_controller_key_handle_event env event key) →
  gdk_event_get_event_type event = GDK_KEY_PRESS ∧
  im_filters env key event = FALSE ∧
  gdk_event_get_keycode event = keycode ∧
  gdk_event_get_state event = Some state ∧
  handled = on_key_pressed env (during event key) keyval keycode state ∧
  (gdk_event_get_key_is_modifier event = Some true →
   on_modifiers env (during event key) state = FALSE).
Proof.
  unfold_handle. unfold during.
  destruct (gdk_event_get_event_type event); simpl; by_cases;
    invert_membership; done.
Qed.

Lemma key_pressed_only_for_press_witness :
  Emit (KEY_PRESSED 65505 50 0 TRUE)
    ∈ effects (gtk_event_controller_key_handle_event (answering false true false)
                 press_Shift gtk_event_controller_key_init) ∧
  gdk_event_get_event_type press_Shift = GDK_KEY_PRESS ∧
  im_filters (answering false true false) gtk_event_controller_key_init
    press_Shift = FALSE ∧
  gdk_event_get_keycode press_Shift = 50%N ∧
  gdk_event_get_state press_Shift = Some 0%N ∧
  TRUE = on_key_pressed (answering false true false)
           (during press_Shift gtk_event_controller_key_init) 65505 50 0 ∧
  (gdk_event_get_key_is_modifier press_Shift = Some true →
   on_modifiers (answering false true false)
     (during press_Shift gtk_event_controller_key_init) 0%N = FALSE).
Proof.
  assert (Hemitted :
    Emit (KEY_PRESSED 65505 50 0 TRUE)
      ∈ effects (gtk_event_controller_key_handle_event
                   (answering false true false) press_Shift
                   gtk_event_controller_key_init))
    by (apply list_elem_of_In; vm_compute; right; left; reflexivity).
  split; [exact Hemitted |].
  apply (key_pressed_only_for_press (answering false true false)
           press_Shift gtk_event_controller_key_init 65505%N 50%N 0%N TRUE
           Hemitted).
Defined.

(** X7.  A key press is reported consumed exactly when the input method
    filtered it ([im-update] was emitted) or the observers of one of the
    emitted [modifiers] or [key-pressed] signals handled it. *)
Theorem press_consumed_iff env event key :
  gdk_event_get_event_type event = GDK_KEY_PRESS →
  let r := gtk_event_controller_key_handle_event env event key in
  result r = TRUE ↔
    Emit IM_UPDATE ∈ effects r ∨
    (∃ state, Emit (MODIFIERS state TRUE) ∈ effects r) ∨
    (∃ keyval keycode state,
        Emit (KEY_PRESSED keyval keycode state TRUE) ∈ effects r).
Proof.
  intros Htype r. subst r. unfold_handle. rewrite Htype. simpl.
  by_cases; (split; [intros Hresult; try discriminate Hresult | intros Hsome]).
  all: try (destruct Hsome as [Him | [[? Hmod] | (? & ? & ? & Hkey)]];
            [revert Him | revert Hmod | revert Hkey];
            invert_membership; done).
  all: first
    [ left; apply list_elem_of_here
    | right; left; eexists; apply list_elem_of_here
    | right; right; do 3 eexists; apply list_elem_of_here
    | right; right; do 3 eexists;
      apply list_elem_of_further, list_elem_of_here ].
Qed.

Lemma press_consumed_iff_witness :
  let r := gtk_event_controller_key_handle_event (answering false true false)
             press_A gtk_event_controller_key_init in
  gdk_event_get_event_type press_A = GDK_KEY_PRESS ∧
  (result r = TRUE ↔
     Emit IM_UPDATE ∈ effects r ∨
     (∃ state, Emit (MODIFIERS state TRUE) ∈ effects r) ∨
     (∃ keyval keycode state,
         Emit (KEY_PRESSED keyval keycode state TRUE) ∈ effects r)).
Proof.
  split; [reflexivity |].
  apply (press_consumed_iff (answering false true false) press_A
           gtk_event_controller_key_init).
  reflexivity.
Defined.

(** ** The pressed keys, call by call *)

(** X8.  On a controller that was only ever used through its public
    functions, a key release that reaches the release path is reported
    consumed exactly when its key value is among the pressed keys and is not
    the key value 0. *)
Theorem release_consumed_iff cs env event state :
  let key := after (calls cs gtk_event_controller_key_init) in
  gdk_event_get_event_type event = GDK_KEY_RELEASE →
  im_filters env key event = FALSE →
  gdk_event_get_state event = Some state →
  gdk_event_get_key_is_modifier event = Some false →
  result (gtk_event_controller_key_handle_event env event key) = TRUE ↔
    gdk_event_get_keyval event ∈ pressed_set key ∧
    gdk_event_get_keyval event ≠ 0%N.
Proof.
  intros key Htype Hfilter Hstate Hclass.
  assert (Htable : stores_keys (pressed_keys key))
    by apply calls_store_keys, init_stores_keys.
  rewrite (handle_event_key_release env event key Hfilter state) by done.
  unfold result, pressed_set, keys, g_hash_table_lookup, GUINT_TO_POINTER, NULL.
  simpl. rewrite elem_of_dom.
  destruct (pressed_keys key !! gdk_event_get_keyval event) as [value |]
    eqn:Hlookup; simpl.
  - rewrite (Htable _ _ Hlookup).
    destruct (N.eqb_spec (gdk_event_get_keyval event) 0); simpl.
    + split; [done | intros [_ Hne]; done].
    + split; [intros _; split; [by eexists | done] | done].
  - split; [done | intros [[? Hsome] _]; done].
Qed.

Lemma release_consumed_iff_witness :
  let env := answering false true false in
  let key := after (calls [HandleEvent env press_A]
                      gtk_event_controller_key_init) in
  gdk_event_get_event_type release_A = GDK_KEY_RELEASE ∧
  im_filters env key release_A = FALSE ∧
  gdk_event_get_state release_A = Some 0%N ∧
  gdk_event_get_key_is_modifier release_A = Some false ∧
  (result (gtk_event_controller_key_handle_event env release_A key) = TRUE ↔
     gdk_event_get_keyval release_A ∈ pressed_set key ∧
     gdk_event_get_keyval release_A ≠ 0%N).
Proof.
  split_and!; [reflexivity | reflexivity | reflexivity | reflexivity |].
  apply (release_consumed_iff
           [HandleEvent (answering false true false) press_A]
           (answering false true false) release_A 0%N);
    reflexivity.
Defined.

(** X9.  Handling an event leaves the entries of all key values other than
    the one of the event as they were: no other key becomes pressed or
    released. *)
Theorem other_keys_untouched env event key (k : guint) :
  k ≠ gdk_event_get_keyval event →
  pressed_keys (after (gtk_event_controller_key_handle_event env event key))
    !! k
    = pressed_keys key !! k.
Proof.
  intros Hother. unfold_handle.
  destruct (gdk_event_get_event_type event); simpl; by_cases;
    unfold g_hash_table_add, g_hash_table_remove, GUINT_TO_POINTER.
  - by rewrite lookup_insert_ne.
  - by rewrite lookup_insert_ne.
  - by rewrite lookup_delete_ne.
Qed.

Lemma other_keys_untouched_witness :
  65505%N ≠ gdk_event_get_keyval press_A ∧
  pressed_keys (after (gtk_event_controller_key_handle_event
                         (answering false true false) press_A
                         gtk_event_controller_key_init))
    !! 65505%N
    = pressed_keys gtk_event_controller_key_init !! 65505%N.
Proof.
  split; [discriminate |].
  apply (other_keys_untouched (answering false true false) press_A
           gtk_event_controller_key_init 65505%N).
  discriminate.
Defined.

(** X10.  Only a key press can add to the pressed keys and only a key
    release can take away from them; the handler never attaches, replaces or
    detaches the input-method context. *)
Theorem handle_event_changes_by_type env event key :
  let r := gtk_event_controller_key_handle_event env event key in
  (gdk_event_get_event_type event ≠ GDK_KEY_PRESS →
   pressed_set (after r) ⊆ pressed_set key) ∧
  (gdk_event_get_event_type event ≠ GDK_KEY_RELEASE →
   pressed_set key ⊆ pressed_set (after r)) ∧
  im_context (after r) = im_context key.
Proof.
  intros r. subst r. unfold_handle. unfold pressed_set, keys.
  destruct (gdk_event_get_event_type event); simpl; by_cases;
    unfold g_hash_table_add, g_hash_table_remove;
    rewrite ?dom_insert_L, ?dom_delete_L;
    split_and!; try done; intros _;
    [apply union_subseteq_r | apply union_subseteq_r
    | apply subseteq_difference_l; done].
Qed.

(** X11.  A release on the release path takes its key value out of the
    pressed keys, so that a second such release of the same key value is
    not consumed, whatever the pressed keys were. *)
Theorem second_release_not_consumed
    env1 env2 release1 release2 key state1 state2 :
  let r1 := gtk_event_controller_key_handle_event env1 release1 key in
  let r2 := gtk_event_controller_key_handle_event env2 release2 (after r1) in
  gdk_event_get_event_type release1 = GDK_KEY_RELEASE →
  im_filters env1 key release1 = FALSE →
  gdk_event_get_state release1 = Some state1 →
  gdk_event_get_key_is_modifier release1 = Some false →
  gdk_event_get_event_type release2 = GDK_KEY_RELEASE →
  im_filters env2 (after r1) release2 = FALSE →
  gdk_event_get_state release2 = Some state2 →
  gdk_event_get_key_is_modifier release2 = Some false →
  gdk_event_get_keyval release2 = gdk_event_get_keyval release1 →
  (gdk_event_get_keyval release1 ∉ pressed_set (after r1)) ∧
  result r2 = FALSE.
Proof.
  intros r1 r2 Htype1 Hfilter1 Hstate1 Hclass1
    Htype2 Hfilter2 Hstate2 Hclass2 Hsame.
  assert (Hgone :
    pressed_keys (after r1) !! gdk_event_get_keyval release1 = None).
  { subst r1.
    rewrite (handle_event_key_release env1 release1 key Hfilter1 state1)
      by done.
    unfold after; simpl. apply lookup_delete_eq. }
  split.
  - unfold pressed_set, keys. by apply not_elem_of_dom.
  - subst r2.
    rewrite (handle_event_key_release env2 release2 (after r1) Hfilter2 state2)
      by done.
    unfold result, g_hash_table_lookup, GUINT_TO_POINTER; simpl.
    by rewrite Hsame, Hgone.
Qed.

Lemma second_release_not_consumed_witness :
  let env := answering false true false in
  let key := after (calls [HandleEvent env press_A]
                      gtk_event_controller_key_init) in
  let r1 := gtk_event_controller_key_handle_event env release_A key in
  let r2 := gtk_event_controller_key_handle_event env release_A (after r1) in
  gdk_event_get_event_type release_A = GDK_KEY_RELEASE ∧
  im_filters env key release_A = FALSE ∧
  gdk_event_get_state release_A = Some 0%N ∧
  gdk_event_get_key_is_modifier release_A = Some false ∧
  im_filters env (after r1) release_A = FALSE ∧
  gdk_event_get_keyval release_A = gdk_event_get_keyval release_A ∧
  (gdk_event_get_keyval release_A ∉ pressed_set (after r1)) ∧
  result r2 = FALSE.
Proof.
  split_and!;
    [reflexivity | reflexivity | reflexivity | reflexivity | reflexivity
    | reflexivity | |];
    apply (second_release_not_consumed
             (answering false true false) (answering false true false)
             release_A release_A
             (after (calls [HandleEvent (answering false true false) press_A]
                       gtk_event_controller_key_init))
             0%N 0%N);
    reflexivity.
Defined.

(** X12.  A key value is recorded once: when [key-pressed] is emitted and
    handled a second time for the same key value (a repeating key), the
    pressed keys are what they were after the first. *)
Theorem repeated_press_recorded_once
    env1 env2 press1 press2 key k keycode1 state1 keycode2 state2 :
  let r1 := gtk_event_controller_key_handle_event env1 press1 key in
  let r2 := gtk_event_controller_key_handle_event env2 press2 (after r1) in
  Emit (KEY_PRESSED k keycode1 state1 TRUE) ∈ effects r1 →
  Emit (KEY_PRESSED k keycode2 state2 TRUE) ∈ effects r2 →
  pressed_keys (after r2) = pressed_keys (after r1).
Proof.
  intros r1 r2 Hfirst Hsecond.
  apply key_pressed_emitted in Hfirst as (_ & _ & _ & Hadded1).
  apply key_pressed_emitted in Hsecond as (_ & _ & _ & Hadded2).
  fold r1 in Hadded1, Hadded2. fold r2 in Hadded2.
  rewrite Hadded2, Hadded1. unfold g_hash_table_add.
  apply insert_insert_eq.
Qed.

Lemma repeated_press_recorded_once_witness :
  let env := answering false true false in
  let r1 := gtk_event_controller_key_handle_event env press_A
              gtk_event_controller_key_init in
  let r2 := gtk_event_controller_key_handle_event env press_A (after r1) in
  Emit (KEY_PRESSED 65 38 0 TRUE) ∈ effects r1 ∧
  Emit (KEY_PRESSED 65 38 0 TRUE) ∈ effects r2 ∧
  pressed_keys (after r2) = pressed_keys (after r1).
Proof.
  assert (Hfirst :
    Emit (KEY_PRESSED 65 38 0 TRUE)
      ∈ effects (gtk_event_controller_key_handle_event
                   (answering false true false) press_A
                   gtk_event_controller_key_init))
    by (apply list_elem_of_In; vm_compute; left; reflexivity).
  assert (Hsecond :
    Emit (KEY_PRESSED 65 38 0 TRUE)
      ∈ effects (gtk_event_controller_key_handle_event
                   (answering false true false) press_A
                   (after (gtk_event_controller_key_handle_event
                             (answering false true false) press_A
                             gtk_event_controller_key_init))))
    by (apply list_elem_of_In; vm_compute; left; reflexivity).
  split_and!; [exact Hfirst | exact Hsecond |].
  apply (repeated_press_recorded_once
           (answering false true false) (answering false true false)
           press_A press_A gtk_event_controller_key_init
           65%N 38%N 0%N 38%N 0%N Hfirst Hsecond).
Defined.

(** X13.  A key press that no observer handles is not consumed and is not
    recorded: the pressed keys are as they were, whether or not the key
    value was among them.  If it was not, the release of that key value on
    the release path, next, is not consumed either. *)
Theorem unhandled_press_then_release
    env1 env2 press release key k keycode state state' :
  let r1 := gtk_event_controller_key_handle_event env1 press key in
  let r2 := gtk_event_controller_key_handle_event env2 release (after r1) in
  Emit (KEY_PRESSED k keycode state FALSE) ∈ effects r1 →
  result r1 = FALSE ∧
  pressed_keys (after r1) = pressed_keys key ∧
  (k ∉ pressed_set key →
   gdk_event_get_event_type release = GDK_KEY_RELEASE →
   gdk_event_get_keyval release = k →
   im_filters env2 (after r1) release = FALSE →
   gdk_event_get_state release = Some state' →
   gdk_event_get_key_is_modifier release = Some false →
   result r2 = FALSE).
Proof.
  intros r1 r2 Hpressed.
  apply key_pressed_emitted in Hpressed as (_ & _ & Hresult & Hsame).
  fold r1 in Hresult, Hsame. split_and!; [done | done |].
  intros Hnotin Htype Hkeyval Hfilter Hstate Hclass. subst r2.
  rewrite (handle_event_key_release env2 release (after r1) Hfilter state')
    by done.
  unfold result, g_hash_table_lookup, GUINT_TO_POINTER; simpl.
  rewrite Hsame, Hkeyval.
  unfold pressed_set, keys in Hnotin. apply not_elem_of_dom in Hnotin.
  by rewrite Hnotin.
Qed.

(** The witness: A is pressed and handled, then its repeat is not: the
    repeat is not consumed and A stays pressed. *)
Lemma unhandled_press_then_release_witness :
  let key := after (calls [HandleEvent (answering false true false) press_A]
                      gtk_event_controller_key_init) in
  let env := answering false false false in
  let r1 := gtk_event_controller_key_handle_event env press_A key in
  Emit (KEY_PRESSED 65 38 0 FALSE) ∈ effects r1 ∧
  65%N ∈ pressed_set key ∧
  result r1 = FALSE ∧
  pressed_keys (after r1) = pressed_keys key.
Proof.
  assert (Hpressed :
    Emit (KEY_PRESSED 65 38 0 FALSE)
      ∈ effects (gtk_event_controller_key_handle_event
                   (answering false false false) press_A
                   (after (calls
                             [HandleEvent (answering false true false) press_A]
                             gtk_event_controller_key_init))))
    by (apply list_elem_of_In; vm_compute; left; reflexivity).
  split_and!; [exact Hpressed | apply (bool_decide_unpack _); by vm_compute | |];
    apply (unhandled_press_then_release
             (answering false false false) (answering false false false)
             press_A release_A
             (after (calls [HandleEvent (answering false true false) press_A]
                       gtk_event_controller_key_init))
             65%N 38%N 0%N 0%N Hpressed).
Defined.

(** * Properties of the other functions *)

(** X14.  Forwarding, the key-group query and the getter of the input
    method never change the controller, whether or not an event is in
    flight; the getter has no effect and yields the attached context. *)
Theorem queries_leave_controller env widget key :
  after (gtk_event_controller_key_forward env widget key) = key ∧
  after (gtk_event_controller_key_get_group key) = key ∧
  gtk_event_controller_key_get_im_context key = (im_context key, key, []).
Proof.
  unfold gtk_event_controller_key_forward, gtk_event_controller_key_get_group,
    gtk_event_controller_key_get_im_context.
  unfold_m. split_and!; by_cases.
Qed.

(** X15.  The setter of the input method attaches its argument (NULL
    detaches), which the getter then yields; it resets the context that was
    attached before, if there was one, and only that one; the pressed keys
    and the event in flight are as they were. *)
Theorem set_then_get_im_context im key :
  let r := gtk_event_controller_key_set_im_context im key in
  result (gtk_event_controller_key_get_im_context (after r)) = im ∧
  effects r = match im_context key with
              | Some old => [Reset old]
              | None => []
              end ∧
  pressed_keys (after r) = pressed_keys key ∧
  current_event (after r) = current_event key.
Proof.
  intros r. subst r.
  unfold gtk_event_controller_key_set_im_context,
    gtk_event_controller_key_get_im_context.
  unfold_m. by destruct (im_context key).
Qed.

(** Per call: only the setter changes the attached input method. *)
Lemma call_last_im_context c key :
  im_context (after (call c key)) = last_im_context [c] (im_context key).
Proof.
  destruct c as [env event | im | env widget |]; unfold call; simpl.
  - unfold bind, ret, after.
    assert (Hhandler :
      im_context (after (gtk_event_controller_key_handle_event env event key))
        = im_context key).
    { unfold_handle.
      destruct (gdk_event_get_event_type event); simpl; by_cases. }
    unfold after in Hhandler.
    by destruct (gtk_event_controller_key_handle_event env event key)
      as [[handled key'] log].
  - unfold gtk_event_controller_key_set_im_context. unfold_m.
    by destruct (im_context key).
  - unfold gtk_event_controller_key_forward. unfold_m. by_cases.
  - unfold gtk_event_controller_key_get_group. unfold_m. by_cases.
Qed.

Lemma calls_last_im_context cs : ∀ key,
  im_context (after (calls cs key)) = last_im_context cs (im_context key).
Proof.
  induction cs as [| c cs IH]; intros key; [done |].
  pose proof (call_last_im_context c key) as Hstep.
  specialize (IH (after (call c key))).
  simpl calls. unfold bind, after in *.
  destruct (call c key) as [[[] key1] log1]; simpl in *.
  destruct (calls cs key1) as [[[] key2] log2]; simpl in *.
  rewrite IH, Hstep. by destruct c.
Qed.

(** X16.  After any sequence of calls on a fresh controller, the attached
    input-method context is the argument of the last call of the setter,
    and none if the setter was never called: handling events, forwarding
    and querying never change it. *)
Theorem im_context_is_last_set cs :
  im_context (after (calls cs gtk_event_controller_key_init))
    = last_im_context cs None.
Proof. apply calls_last_im_context. Qed.

(** X17.  After any sequence of calls on a fresh controller no event is in
    flight: forwarding and the key-group query, called between two calls of
    the handler, fail their precondition check. *)
Theorem forward_between_calls_fails cs env widget :
  let key := after (calls cs gtk_event_controller_key_init) in
  current_event key = None ∧
  gtk_event_controller_key_forward env widget key = (FALSE, key, [Critical]) ∧
  gtk_event_controller_key_get_group key = (0%N, key, [Critical]).
Proof.
  intros key.
  assert (Hnone : current_event key = None)
    by (apply calls_leave_no_event; reflexivity).
  unfold gtk_event_controller_key_forward, gtk_event_controller_key_get_group.
  unfold_m. by rewrite Hnone.
Qed.

(** X18.  Forwarding logs a failed precondition exactly when its widget
    argument is NULL or not a widget, or no event is in flight; it then
    returns FALSE with this one warning, realizes nothing, dispatches
    nothing and leaves the controller as it was.  The key-group query logs
    one exactly when no event is in flight; with an event in flight it
    yields the key group of that event and has no effect. *)
Theorem forward_precondition_fails_iff env widget key :
  (Critical ∈ effects (gtk_event_controller_key_forward_checked env widget key)
     ↔ widget = None ∨ current_event key = None) ∧
  (widget = None ∨ current_event key = None →
   gtk_event_controller_key_forward_checked env widget key
     = (FALSE, key, [Critical])) ∧
  (Critical ∈ effects (gtk_event_controller_key_get_group key) ↔
     current_event key = None) ∧
  (∀ event, current_event key = Some event →
     gtk_event_controller_key_get_group key
       = (gdk_event_get_key_group event, key, [])).
Proof.
  unfold gtk_event_controller_key_forward_checked,
    gtk_event_controller_key_forward, gtk_event_controller_key_get_group.
  unfold_m. split_and!.
  - destruct widget as [widget |], (current_event key) as [event |]; simpl.
    + split; [| intros [? | ?]; done]. by_cases; invert_membership; done.
    + split; [by right | intros _; apply list_elem_of_here].
    + split; [by left | intros _; apply list_elem_of_here].
    + split; [by left | intros _; apply list_elem_of_here].
  - destruct widget as [widget |], (current_event key) as [event |]; simpl;
      intros [? | ?]; done.
  - destruct (current_event key) as [event |]; simpl.
    + split; [| done]. invert_membership; done.
    + split; [done | intros _; apply list_elem_of_here].
  - intros event Hevent. by rewrite Hevent.
Qed.
